(** * AI-Agents Hub: agent registry and workflow runner

    A shallow embedding of [ai_agents/__init__.py] (the agent registry) and
    [ai_agents/agent.py] ([BaseAgent], [EchoAgent], [run_workflow]), and the
    properties of the registry and of the runner proved over it.

    Python values are embedded as the data a workflow file or a JSON payload
    holds: [None], booleans, integers, strings, lists and dictionaries with
    hashable scalar keys (floating-point numbers are left out).  A string is a
    sequence of characters, one [ascii] per character; the text outside ASCII
    that occurs in the program's messages is kept as its UTF-8 bytes.
    Dictionaries keep their insertion order, as Python's do.

    The registry is module-level mutable state, so the registry functions and
    the runner are written in a state-and-exception monad over it.  Discovery
    ([autodiscover_agents]) is written over a model of the modules on disk and
    of the interpreter's table of imported modules. *)

From Stdlib Require Import ZArith Ascii String List.
From stdpp Require Import base strings pretty list gmap.

#[local] Set Warnings "-register-all".
#[local] Open Scope Z_scope.

(** ** Python values *)

(** Hashable scalars: the keys a dictionary can have. *)
Inductive key :=
| KNone
| KBool (b : bool)
| KInt (z : Z)
| KStr (s : string).

Inductive value :=
| VNone
| VBool (b : bool)
| VInt (z : Z)
| VStr (s : string)
| VList (l : list value)
| VDict (d : list (key * value)).

(** A dictionary: its items in insertion order. *)
Abbreviation dict := (list (key * value)).

#[global] Instance key_eq_dec : EqDecision key.
Proof. solve_decision. Defined.

(** Python compares [True] with [1] and [False] with [0] as equal (and they
    hash alike), so as dictionary keys they are the same key. *)
Definition key_norm (k : key) : key :=
  match k with
  | KBool b => KInt (if b then 1 else 0)
  | _ => k
  end.

Definition key_eqb (k1 k2 : key) : bool :=
  bool_decide (key_norm k1 = key_norm k2).

Definition key_value (k : key) : value :=
  match k with
  | KNone => VNone
  | KBool b => VBool b
  | KInt z => VInt z
  | KStr s => VStr s
  end.

(** [hash(v)] succeeds on scalars and fails on lists and dictionaries. *)
Definition as_key (v : value) : option key :=
  match v with
  | VNone => Some KNone
  | VBool b => Some (KBool b)
  | VInt z => Some (KInt z)
  | VStr s => Some (KStr s)
  | VList _ | VDict _ => None
  end.

(** Exceptions.  Those the program raises itself carry their message; the
    interpreter's own [TypeError] and [AttributeError] are kept by class
    only. *)
Inductive exn :=
| ValueError (msg : string)
| KeyError (msg : string)
| NotImplementedError (msg : string)
| TypeError
| AttributeError.

#[global] Instance exn_eq_dec : EqDecision exn.
Proof. solve_decision. Defined.

(** The outcome of a call: a value or a raised exception. *)
Inductive result (A : Type) :=
| Ok (a : A)
| Err (e : exn).
Arguments Ok {A} a.
Arguments Err {A} e.

Definition result_bind {A B} (r : result A) (k : A -> result B) : result B :=
  match r with
  | Ok a => k a
  | Err e => Err e
  end.

(** ** Built-in operations the program uses *)

(** Truth value of an object, as tested by [x or y]. *)
Definition truthy (v : value) : bool :=
  match v with
  | VNone => false
  | VBool b => b
  | VInt z => negb (z =? 0)
  | VStr s => negb (bool_decide (s = EmptyString))
  | VList l => negb (bool_decide (length l = 0%nat))
  | VDict d => negb (bool_decide (length d = 0%nat))
  end.

(** [a or b] *)
Definition py_or (a b : value) : value :=
  if truthy a then a else b.

Definition isinstance_dict (v : value) : bool :=
  match v with
  | VDict _ => true
  | _ => false
  end.

(** [d.get(k)] on the items of a dictionary *)
Fixpoint dict_get (k : key) (d : dict) : option value :=
  match d with
  | [] => None
  | (k', v) :: rest => if key_eqb k k' then Some v else dict_get k rest
  end.

(** [d[k] = v]: an existing key keeps its place, a new one goes last. *)
Fixpoint dict_setitem (k : key) (v : value) (d : dict) : dict :=
  match d with
  | [] => [(k, v)]
  | (k', v') :: rest =>
      if key_eqb k k' then (k', v) :: rest
      else (k', v') :: dict_setitem k v rest
  end.

(** [k in obj]; the program applies it to dictionaries only. *)
Definition py_in (k : key) (obj : value) : bool :=
  match obj with
  | VDict d => bool_decide (is_Some (dict_get k d))
  | _ => false
  end.

Definition str_chars (s : string) : list value :=
  map (fun c => VStr (String c EmptyString)) (list_ascii_of_string s).

(** [iter(obj)]: the elements a [for] loop, [enumerate] or [dict(...)] sees. *)
Definition py_iter (obj : value) : result (list value) :=
  match obj with
  | VList l => Ok l
  | VDict d => Ok (map (fun kv => key_value kv.1) d)
  | VStr s => Ok (str_chars s)
  | VNone | VBool _ | VInt _ => Err TypeError
  end.

(** [obj.get(k, default)]: only dictionaries have the method. *)
Definition py_get (obj : value) (k : key) (default : value) : result value :=
  match obj with
  | VDict d => Ok (match dict_get k d with Some v => v | None => default end)
  | _ => Err AttributeError
  end.

(** ** [str] and [repr] *)

Fixpoint str_mem (c : ascii) (s : string) : bool :=
  match s with
  | EmptyString => false
  | String c' rest => if Ascii.eqb c c' then true else str_mem c rest
  end.

Definition hex_digit (n : N) : ascii :=
  match String.get (N.to_nat n) "0123456789abcdef" with
  | Some c => c
  | None => "0"%char
  end.

(** One character of [repr(s)] for the chosen quote. *)
Definition repr_char (quote c : ascii) : string :=
  let n := N_of_ascii c in
  if Ascii.eqb c quote || Ascii.eqb c "\"%char then String "\"%char (String c EmptyString)
  else if (n =? 9)%N then "\t"
  else if (n =? 10)%N then "\n"
  else if (n =? 13)%N then "\r"
  else if (n <? 32)%N || (n =? 127)%N then
    String "\"%char (String "x"%char
      (String (hex_digit (n / 16)) (String (hex_digit (n mod 16)) EmptyString)))
  else String c EmptyString.

Fixpoint repr_chars (quote : ascii) (s : string) : string :=
  match s with
  | EmptyString => EmptyString
  | String c rest => repr_char quote c +:+ repr_chars quote rest
  end.

(** [repr(s)] of a string: single quotes, unless the string has a single
    quote and no double quote. *)
Definition repr_str (s : string) : string :=
  let quote :=
    if str_mem "'"%char s && negb (str_mem "034"%char s) then "034"%char
    else "'"%char in
  String quote (repr_chars quote s) +:+ String quote EmptyString.

Definition repr_key (k : key) : string :=
  match k with
  | KNone => "None"
  | KBool b => if b then "True" else "False"
  | KInt z => pretty z
  | KStr s => repr_str s
  end.

Fixpoint py_repr (v : value) : string :=
  match v with
  | VNone => "None"
  | VBool b => if b then "True" else "False"
  | VInt z => pretty z
  | VStr s => repr_str s
  | VList l => "[" +:+ String.concat ", " (map py_repr l) +:+ "]"
  | VDict d =>
      "{" +:+ String.concat ", "
                (map (fun kv => let '(k, x) := kv in
                                repr_key k +:+ ": " +:+ py_repr x) d) +:+ "}"
  end.

(** [str(v)], which is also what an f-string field [{v}] renders. *)
Definition py_str (v : value) : string :=
  match v with
  | VStr s => s
  | _ => py_repr v
  end.

(** [dict(iterable)]: every element must itself have exactly two elements, a
    hashable key and its value. *)
Fixpoint dict_update_seq (i : Z) (items : list value) (acc : dict) : result dict :=
  match items with
  | [] => Ok acc
  | e :: rest =>
      match py_iter e with
      | Err _ => Err TypeError
      | Ok [k; v] =>
          match as_key k with
          | Some k' => dict_update_seq (i + 1) rest (dict_setitem k' v acc)
          | None => Err TypeError
          end
      | Ok seq =>
          Err (ValueError ("dictionary update sequence element #" +:+ pretty i
                           +:+ " has length " +:+ pretty (Z.of_nat (length seq))
                           +:+ "; 2 is required"))
      end
  end.

(** [dict(obj)]: a copy of a dictionary, or a dictionary built from pairs. *)
Definition py_dict (obj : value) : result dict :=
  match obj with
  | VDict d => Ok d
  | _ => result_bind (py_iter obj) (fun items => dict_update_seq 0 items [])
  end.

(** [obj[k]]: a dictionary raises [KeyError] on a missing key; no other type of
    object here can be indexed by a key. *)
Definition py_getitem (obj : value) (k : key) : result value :=
  match obj with
  | VDict d =>
      match dict_get k d with
      | Some v => Ok v
      | None => Err (KeyError (repr_key k))
      end
  | _ => Err TypeError
  end.

#[global] Instance result_ret : MRet result := fun A a => Ok a.
#[global] Instance result_mbind : MBind result := fun A B k r => result_bind r k.

(** ** Agent classes and instances ([agent.py]) *)

(** A subclass of [BaseAgent]: its name and its [process] method.  As in
    [EchoAgent], a subclass inherits [BaseAgent.__init__] and its [process]
    sees the instance only through [self.config]: it is a function of the
    configuration and of the payload, which returns or raises and leaves the
    registry alone. *)
Record AgentCls := {
  cls_name : string;
  cls_process : value -> value -> result value
}.

(** An agent instance: its class and its [self.config]. *)
Record agent := {
  agent_cls : AgentCls;
  self_config : value
}.

(** [BaseAgent.__init__], run by [cls(config)]. *)
Definition BaseAgent_init (cls : AgentCls) (config : value) : agent :=
  {| agent_cls := cls; self_config := py_or config (VDict []) |}.

(** The method call [a.process(payload)], dispatched on the class of [a]. *)
Definition agent_process (a : agent) (payload : value) : result value :=
  cls_process (agent_cls a) (self_config a) payload.

(** [BaseAgent.process] *)
Definition BaseAgent_process (self_config payload : value) : result value :=
  Err (NotImplementedError "Sub‑classes must implement `process`.").

Definition BaseAgent : AgentCls :=
  {| cls_name := "BaseAgent"; cls_process := BaseAgent_process |}.

(** [EchoAgent.process] *)
Definition EchoAgent_process (self_config payload : value) : result value :=
  result ← py_dict payload;
  prefix ← py_get self_config (KStr "prefix") (VStr "Echo:");
  input ← py_get payload (KStr "input") (VStr "");
  mret (VDict (dict_setitem (KStr "message")
                 (VStr (py_str prefix +:+ " " +:+ py_str input)) result)).

Definition EchoAgent : AgentCls :=
  {| cls_name := "EchoAgent"; cls_process := EchoAgent_process |}.

(** ** Program state and its monad *)

(** A call [agent.process(payload)] made by the runner: the class name and
    configuration of the instance, and the payload it was given. *)
Inductive event :=
| ProcessCall (cls : string) (config payload : value).

(** The state of the running program: the module-level [AGENT_REGISTRY], and
    the calls of [process] made so far, recorded so that what the runner
    executed can be stated. *)
Record state := {
  AGENT_REGISTRY : gmap string AgentCls;
  process_log : list event
}.

(** A computation reads and updates the state and returns or raises; a raised
    exception leaves the state as it was when it was raised. *)
Definition M (A : Type) : Type := state -> result A * state.

#[global] Instance M_ret : MRet M := fun A a st => (Ok a, st).
#[global] Instance M_bind : MBind M := fun A B k c st =>
  match c st with
  | (Ok a, st') => k a st'
  | (Err e, st') => (Err e, st')
  end.

Definition raise {A} (e : exn) : M A := fun st => (Err e, st).

Definition lift {A} (r : result A) : M A := fun st => (r, st).

(** [try: body except Exception as exc: handler(exc)] *)
Definition try_except {A} (body : M A) (handler : exn -> M A) : M A := fun st =>
  match body st with
  | (Ok a, st') => (Ok a, st')
  | (Err e, st') => handler e st'
  end.

(** ** The registry ([__init__.py]) *)

(** [AGENT_REGISTRY[name] = cls] *)
Definition registry_setitem (name : string) (cls : AgentCls) : M unit := fun st =>
  (Ok tt, {| AGENT_REGISTRY := <[name := cls]> (AGENT_REGISTRY st);
             process_log := process_log st |}).

(** [AGENT_REGISTRY[name]]: every key of the registry is a class name, a
    string, so any other hashable [name] is a missing key. *)
Definition registry_getitem (name : value) : M AgentCls := fun st =>
  match as_key name with
  | None => (Err TypeError, st)
  | Some (KStr s) =>
      match AGENT_REGISTRY st !! s with
      | Some cls => (Ok cls, st)
      | None => (Err (KeyError (py_repr name)), st)
      end
  | Some _ => (Err (KeyError (py_repr name)), st)
  end.

Definition register_agent (cls : AgentCls) : M AgentCls :=
  _ ← registry_setitem (cls_name cls) cls;
  mret cls.

Definition get_agent_class (name : value) : M AgentCls :=
  try_except (registry_getitem name) (fun exc =>
    match exc with
    | KeyError _ => raise (KeyError ("Agent '" +:+ py_str name +:+ "' is not registered."))
    | _ => raise exc
    end).

(** The state once the package is imported: [autodiscover_agents] has loaded
    [agent.py], whose decorator registered [EchoAgent]. *)
Definition imported : state :=
  (register_agent EchoAgent {| AGENT_REGISTRY := ∅; process_log := [] |}).2.

(** ** The workflow runner ([agent.py]) *)

(** [agent.process(payload)]: the call is recorded, whether it returns or
    raises. *)
Definition process (a : agent) (payload : value) : M value := fun st =>
  (agent_process a payload,
   {| AGENT_REGISTRY := AGENT_REGISTRY st;
      process_log := process_log st
                       ++ [ProcessCall (cls_name (agent_cls a)) (self_config a) payload] |}).

(** The loop of [run_workflow] over [enumerate(spec["agents"], start=1)]. *)
Fixpoint run_steps (idx : Z) (agent_defs : list value) (payload : value) : M value :=
  match agent_defs with
  | [] => mret payload
  | agent_def :: rest =>
      if negb (isinstance_dict agent_def) || negb (py_in (KStr "name") agent_def) then
        raise (ValueError ("Agent definition at position " +:+ pretty idx
                           +:+ " is malformed."))
      else
        name ← lift (py_getitem agent_def (KStr "name"));
        config ← lift (py_get agent_def (KStr "config") (VDict []));
        AgentCls ← get_agent_class name;
        let agent := BaseAgent_init AgentCls config in
        payload ← process agent payload;
        run_steps (idx + 1) rest payload
  end.

(** [run_workflow], from the point where the workflow file has been loaded:
    [spec] is what [yaml.safe_load] returned. *)
Definition run_workflow (spec initial_payload : value) : M value :=
  if negb (isinstance_dict spec) || negb (py_in (KStr "agents") spec) then
    raise (ValueError "Workflow YAML must contain a top‑level `agents` list.")
  else
    let payload := py_or initial_payload (VDict []) in
    agents ← lift (py_getitem spec (KStr "agents"));
    agent_defs ← lift (py_iter agents);
    run_steps 1 agent_defs payload.

(** ** The registry and the pipeline as the specification words them *)

(** The sequence of [register] operations on the classes of a list, in list
    order. *)
Fixpoint register_all (classes : list AgentCls) : M unit :=
  match classes with
  | [] => mret tt
  | cls :: rest => _ ← register_agent cls; register_all rest
  end.

(** The class most recently registered under [n] by [register_all classes]. *)
Definition last_registered (n : string) (classes : list AgentCls) : option AgentCls :=
  last (filter (fun cls => cls_name cls = n) classes).

(** A pipeline step as the specification describes it: the identifier of an
    agent and an optional configuration. *)
Record step := {
  step_name : value;
  step_config : option value
}.

(** An element of the [agents] list is well formed when it is a mapping that
    contains the [name] field; it then describes a step. *)
Definition parse_step (agent_def : value) : option step :=
  match agent_def with
  | VDict d =>
      name ← dict_get (KStr "name") d;
      Some {| step_name := name; step_config := dict_get (KStr "config") d |}
  | _ => None
  end.

(** One step: resolve the agent by name, construct it with the step's
    configuration (an empty mapping when there is none), call [process] on the
    current payload. *)
Definition run_step (s : step) (payload : value) : M value :=
  cls ← get_agent_class (step_name s);
  process (BaseAgent_init cls (default (VDict []) (step_config s))) payload.

(** The pipeline as a left fold over the steps, each step's returned payload
    being the next one's input; an error ends it. *)
Definition pipeline (steps : list step) (start : value) : M value :=
  fold_left (fun acc s => payload ← acc; run_step s payload) steps (mret start).

(** The [initial_payload] argument of [run_workflow]: a mapping, or [None]
    when it is omitted; and the payload the pipeline then starts from. *)
Definition payload_arg (initial : option dict) : value :=
  from_option VDict VNone initial.

Definition start_payload (initial : option dict) : value :=
  VDict (default [] initial).

(** The error for a specification without the top-level key [k]. *)
Definition missing_key (k : string) : exn :=
  ValueError ("Workflow YAML must contain a top‑level `" +:+ k +:+ "` list.").

(** The error for a malformed element at 1-based position [pos]. *)
Definition malformed_at (pos : Z) : exn :=
  ValueError ("Agent definition at position " +:+ pretty pos +:+ " is malformed.").

(** ** Sample data, from the test suite *)

(** A second class named [EchoAgent], as a module that redefines the agent
    would register. *)
Definition EchoAgent_override : AgentCls :=
  {| cls_name := "EchoAgent"; cls_process := BaseAgent_process |}.

(** The two-step workflow of [test_simple_workflow], as loaded, and its
    steps. *)
Definition two_echo_workflow : dict :=
  [(KStr "agents",
    VList [VDict [(KStr "name", VStr "EchoAgent");
                  (KStr "config", VDict [(KStr "prefix", VStr "[A]")])];
           VDict [(KStr "name", VStr "EchoAgent");
                  (KStr "config", VDict [(KStr "prefix", VStr "[B]")])]])].

Definition two_echo_steps : list step :=
  [ {| step_name := VStr "EchoAgent";
       step_config := Some (VDict [(KStr "prefix", VStr "[A]")]) |};
    {| step_name := VStr "EchoAgent";
       step_config := Some (VDict [(KStr "prefix", VStr "[B]")]) |} ].

(** ** Discovery ([__init__.py]) *)

(** What discovery works on is outside the program: the modules on disk and
    the interpreter's import system.  A module has a name, is a package or
    not, has top-level code, and a package has the submodules that
    [pkgutil.iter_modules] lists for it, in the order it lists them.  The
    top-level code acts on the program state (in [agent.py], its decorators
    register classes) and imports nothing itself. *)
Inductive module :=
| Module (mod_name : string) (is_pkg : bool) (body : M unit) (submodules : list module).

Definition module_name (m : module) : string :=
  match m with Module mod_name _ _ _ => mod_name end.

Definition module_is_pkg (m : module) : bool :=
  match m with Module _ is_pkg _ _ => is_pkg end.

Definition module_body (m : module) : M unit :=
  match m with Module _ _ body _ => body end.

Definition module_submodules (m : module) : list module :=
  match m with Module _ _ _ submodules => submodules end.

(** The interpreter: the program state and [sys.modules], the names of the
    modules already imported. *)
Record interp := {
  program : state;
  sys_modules : gset string
}.

Definition D (A : Type) : Type := interp -> result A * interp.

#[global] Instance D_ret : MRet D := fun A a it => (Ok a, it).
#[global] Instance D_bind : MBind D := fun A B k c it =>
  match c it with
  | (Ok a, it') => k a it'
  | (Err e, it') => (Err e, it')
  end.

(** [importlib.import_module(full_name)] for the module whose top-level code
    is [body]: a module already in [sys.modules] is returned as it is; another
    one has its code run, and enters [sys.modules] unless the code raises. *)
Definition import_module (full_name : string) (body : M unit) : D unit := fun it =>
  if decide (full_name ∈ sys_modules it) then (Ok tt, it)
  else
    match body (program it) with
    | (Ok _, st') =>
        (Ok tt, {| program := st'; sys_modules := {[full_name]} ∪ sys_modules it |})
    | (Err e, st') =>
        (Err e, {| program := st'; sys_modules := sys_modules it |})
    end.

(** [for x in xs: f(x)] *)
Definition for_each {A} (f : A -> D unit) : list A -> D unit :=
  fix loop (xs : list A) : D unit :=
    match xs with
    | [] => mret tt
    | x :: rest => _ ← f x; loop rest
    end.

(** [autodiscover_agents(package)], where [pkg] is the module that [package]
    names.  A module that is not a package has no [__path__]. *)
Fixpoint autodiscover_agents (package : string) (pkg : module) {struct pkg} : D unit :=
  match pkg with
  | Module _ pkg_is_pkg pkg_body pkg_submodules =>
      _ ← import_module package pkg_body;
      if pkg_is_pkg then
        for_each (fun m =>
          match m with
          | Module mod_name is_pkg body _ =>
              let full_name := package +:+ "." +:+ mod_name in
              _ ← import_module full_name body;
              if is_pkg then autodiscover_agents full_name m else mret tt
          end) pkg_submodules
      else fun it => (Err AttributeError, it)
  end.

(** The body of the loop of [autodiscover_agents(package)] for the listed
    module [m]. *)
Definition discover_submodule (package : string) (m : module) : D unit :=
  let full_name := package +:+ "." +:+ module_name m in
  _ ← import_module full_name (module_body m);
  if module_is_pkg m then autodiscover_agents full_name m else mret tt.

(** The full names of the modules that [autodiscover_agents(package)] imports:
    the package, its submodules and, for those that are packages, theirs. *)
Fixpoint discovered (package : string) (pkg : module) {struct pkg} : list string :=
  match pkg with
  | Module _ pkg_is_pkg _ pkg_submodules =>
      package
      :: (if pkg_is_pkg then
            flat_map (fun m =>
              match m with
              | Module mod_name is_pkg _ _ =>
                  let full_name := package +:+ "." +:+ mod_name in
                  if is_pkg then discovered full_name m else [full_name]
              end) pkg_submodules
          else [])
  end.

Definition discovered_submodule (package : string) (m : module) : list string :=
  let full_name := package +:+ "." +:+ module_name m in
  if module_is_pkg m then discovered full_name m else [full_name].






(** The package of the repository: [ai_agents], whose only submodule
    [agent] registers [EchoAgent]; and the interpreter while [ai_agents] is
    being imported, before its last line calls [autodiscover_agents()]. *)
Definition ai_agents : module :=
  Module "ai_agents" true (mret tt)
    [Module "agent" false (_ ← register_agent EchoAgent; mret tt) []].

Definition importing_ai_agents : interp :=
  {| program := {| AGENT_REGISTRY := ∅; process_log := [] |};
     sys_modules := {["ai_agents"]} |}.

(** An interpreter that has imported nothing yet. *)
Definition fresh_interp : interp :=
  {| program := {| AGENT_REGISTRY := ∅; process_log := [] |}; sys_modules := ∅ |}.

(** The interpreter once [ai_agents] is imported. *)
Definition ai_agents_imported : interp :=
  {| program := imported; sys_modules := {["ai_agents.agent"]} ∪ {["ai_agents"]} |}.

(** ** Workflow files, as loaded *)

(** An element of the [agents] list with the [name] field and, optionally, the
    [config] field. *)
Definition step_def (name : string) (config : option value) : value :=
  VDict ((KStr "name", VStr name)
         :: match config with
            | Some c => [(KStr "config", c)]
            | None => []
            end).

(** An element that names [EchoAgent], with a mapping as configuration or
    without one. *)
Definition echo_def (cfg : option dict) : value :=
  step_def "EchoAgent" (VDict <$> cfg).

(** The agent [EchoAgent(cfg)], or [EchoAgent()] when there is no [cfg]. *)
Definition echo_agent (cfg : option dict) : agent :=
  BaseAgent_init EchoAgent (from_option VDict VNone cfg).

(** A workflow file that holds only the [agents] list. *)
Definition workflow_of (agent_defs : list value) : value :=
  VDict [(KStr "agents", VList agent_defs)].

(** A registry that holds [BaseAgent] itself, a class without a [process] of
    its own. *)
Definition only_BaseAgent : state :=
  (register_agent BaseAgent {| AGENT_REGISTRY := ∅; process_log := [] |}).2.

(** The text of the error of [BaseAgent.process]. *)
Definition not_implemented : exn :=
  NotImplementedError "Sub‑classes must implement `process`.".

(** * Properties *)

(** ** Dictionaries *)

Lemma key_eqb_refl (k : key) : key_eqb k k = true.
Proof. unfold key_eqb. by apply bool_decide_eq_true. Qed.

Lemma key_eqb_sym (k1 k2 : key) : key_eqb k1 k2 = key_eqb k2 k1.
Proof. unfold key_eqb. apply bool_decide_ext. split; congruence. Qed.

(** Two keys that are the same key are the same key to any third one. *)
Lemma key_eqb_compat (k k1 k2 : key) :
  key_eqb k1 k2 = true -> key_eqb k k1 = key_eqb k k2.
Proof.
  unfold key_eqb. intros H%bool_decide_eq_true.
  apply bool_decide_ext. rewrite H. done.
Qed.

Lemma dict_get_setitem_eq (k k' : key) (v : value) (d : dict) :
  key_eqb k' k = true ->
  dict_get k' (dict_setitem k v d) = Some v.
Proof.
  intros Heq. induction d as [|[k0 v0] d IH]; simpl.
  - by rewrite Heq.
  - destruct (key_eqb k k0) eqn:E; simpl.
    + by rewrite <- (key_eqb_compat k' k k0 E), Heq.
    + by rewrite (key_eqb_sym k' k0), (key_eqb_compat k0 k' k Heq), (key_eqb_sym k0 k), E.
Qed.

Lemma dict_get_setitem_ne (k k' : key) (v : value) (d : dict) :
  key_eqb k' k = false ->
  dict_get k' (dict_setitem k v d) = dict_get k' d.
Proof.
  intros Hne. induction d as [|[k0 v0] d IH]; simpl.
  - by rewrite Hne.
  - destruct (key_eqb k k0) eqn:E; simpl.
    + by rewrite <- (key_eqb_compat k' k k0 E), Hne.
    + by rewrite IH.
Qed.

(** ** The Echo agent *)

Example EchoAgent_default_prefix :
  agent_process (BaseAgent_init EchoAgent VNone) (VDict [(KStr "input", VStr "test")])
  = Ok (VDict [(KStr "input", VStr "test"); (KStr "message", VStr "Echo: test")]).
Proof. reflexivity. Qed.

Example EchoAgent_custom_prefix :
  agent_process (BaseAgent_init EchoAgent (VDict [(KStr "prefix", VStr ">>")]))
                (VDict [(KStr "input", VStr "hello")])
  = Ok (VDict [(KStr "input", VStr "hello"); (KStr "message", VStr ">> hello")]).
Proof. reflexivity. Qed.

(** Constructing an agent from a mapping, or from no configuration at all,
    leaves it with a mapping as [self.config]. *)
Lemma BaseAgent_init_config (cls : AgentCls) (cfg : option dict) :
  self_config (BaseAgent_init cls (from_option VDict VNone cfg)) = VDict (default [] cfg).
Proof.
  destruct cfg as [[|kv c]|]; reflexivity.
Qed.

(** C2: for every payload [p] and every configuration [cfg] (possibly omitted),
    [EchoAgent.process] returns a mapping [r] in which [message] is the
    configured prefix (default ["Echo:"]), one space, and the value of [p]'s
    [input] key (default the empty string), both rendered as an f-string
    renders them; every other key has in [r] the value it has in [p], and is
    absent from [r] if it is absent from [p]. *)
Theorem EchoAgent_process_adds_message (cfg : option dict) (p : dict) :
  let prefix := default (VStr "Echo:") (cfg ≫= dict_get (KStr "prefix")) in
  let input := default (VStr "") (dict_get (KStr "input") p) in
  exists r : dict,
    agent_process (BaseAgent_init EchoAgent (from_option VDict VNone cfg)) (VDict p)
    = Ok (VDict r)
    /\ dict_get (KStr "message") r = Some (VStr (py_str prefix +:+ " " +:+ py_str input))
    /\ forall k : key, key_eqb k (KStr "message") = false -> dict_get k r = dict_get k p.
Proof.
  intros prefix input. unfold agent_process.
  rewrite BaseAgent_init_config. simpl.
  exists (dict_setitem (KStr "message") (VStr (py_str prefix +:+ " " +:+ py_str input)) p).
  split; [|split].
  - unfold EchoAgent_process, prefix, input. simpl.
    destruct cfg as [c|]; simpl; [|reflexivity].
    by destruct (dict_get (KStr "prefix") c).
  - apply dict_get_setitem_eq, key_eqb_refl.
  - intros k Hk. by apply dict_get_setitem_ne.
Qed.

(** ** The registry *)

(** C8: [register_agent cls] returns the class it was given and stores it in
    the registry under its name, whether or not the name was there before;
    the other entries are unchanged. *)
Theorem register_agent_returns_class (cls : AgentCls) (st : state) :
  exists st' : state,
    register_agent cls st = (Ok cls, st')
    /\ AGENT_REGISTRY st' = <[cls_name cls := cls]> (AGENT_REGISTRY st)
    /\ AGENT_REGISTRY st' !! cls_name cls = Some cls
    /\ (forall n : string, n <> cls_name cls ->
          AGENT_REGISTRY st' !! n = AGENT_REGISTRY st !! n)
    /\ process_log st' = process_log st.
Proof.
  eexists. split; [reflexivity|]. simpl. split; [done|]. split.
  - apply lookup_insert_eq.
  - split; [|done]. intros n Hn. by apply lookup_insert_ne.
Qed.

Lemma get_agent_class_lookup (n : string) (st : state) :
  get_agent_class (VStr n) st =
  match AGENT_REGISTRY st !! n with
  | Some cls => (Ok cls, st)
  | None => (Err (KeyError ("Agent '" +:+ n +:+ "' is not registered.")), st)
  end.
Proof.
  unfold get_agent_class, try_except, registry_getitem. simpl.
  by destruct (AGENT_REGISTRY st !! n).
Qed.

(** C5: for an identifier [n] with no entry in the registry,
    [get_agent_class n] raises a [KeyError] whose message quotes [n], and the
    state, the registry with it, is as it was. *)
Theorem get_agent_class_unregistered (n : string) (st : state) :
  AGENT_REGISTRY st !! n = None ->
  get_agent_class (VStr n) st
  = (Err (KeyError ("Agent '" +:+ n +:+ "' is not registered.")), st).
Proof.
  intros Hn. by rewrite get_agent_class_lookup, Hn.
Qed.

Lemma get_agent_class_unregistered_witness :
  get_agent_class (VStr "NonExistentAgent") imported
  = (Err (KeyError "Agent 'NonExistentAgent' is not registered."), imported).
Proof.
  apply (get_agent_class_unregistered "NonExistentAgent" imported).
  reflexivity.
Defined.

(** The registry after a sequence of registrations: a name registered in the
    sequence maps to the last class registered under it, any other name is as
    before; no registration raises. *)
Lemma register_all_registry (classes : list AgentCls) (st : state) :
  exists st' : state,
    register_all classes st = (Ok tt, st')
    /\ process_log st' = process_log st
    /\ forall n : string,
         AGENT_REGISTRY st' !! n =
         match last_registered n classes with
         | Some cls => Some cls
         | None => AGENT_REGISTRY st !! n
         end.
Proof.
  revert st. induction classes as [|cls rest IH]; intros st.
  - exists st. done.
  - destruct (IH (register_agent cls st).2) as (st' & Hrun & Hlog & Hreg).
    exists st'. split; [exact Hrun|]. split; [exact Hlog|].
    intros n. rewrite Hreg. unfold last_registered. rewrite filter_cons.
    destruct (decide (cls_name cls = n)) as [<-|Hne].
    + rewrite last_cons. destruct (last _); [done|]. simpl. apply lookup_insert_eq.
    + destruct (last _); [done|]. simpl. by apply lookup_insert_ne.
Qed.

(** C6: after any sequence of registrations, an identifier [n] registered at
    least once in it resolves to the class most recently registered under [n];
    none of the registrations raises, duplicates included. *)
Theorem get_agent_class_last_registered
    (classes : list AgentCls) (n : string) (st : state) :
  n ∈ map cls_name classes ->
  exists (cls : AgentCls) (st' : state),
    last_registered n classes = Some cls
    /\ register_all classes st = (Ok tt, st')
    /\ get_agent_class (VStr n) st' = (Ok cls, st').
Proof.
  intros Hn.
  destruct (register_all_registry classes st) as (st' & Hrun & _ & Hreg).
  assert (is_Some (last_registered n classes)) as [cls Hcls].
  { unfold last_registered.
    apply list_elem_of_fmap in Hn as (c & -> & Hc).
    destruct (filter _ classes) as [|x l] eqn:E.
    - assert (c ∈ filter (fun cls => cls_name cls = cls_name c) classes) as Hin
        by (by apply list_elem_of_filter).
      rewrite E in Hin. by apply not_elem_of_nil in Hin.
    - rewrite last_cons. destruct (last l); eauto. }
  exists cls, st'. split; [done|]. split; [done|].
  by rewrite get_agent_class_lookup, Hreg, Hcls.
Qed.

Lemma get_agent_class_last_registered_witness :
  exists (cls : AgentCls) (st' : state),
    last_registered "EchoAgent" [EchoAgent; BaseAgent; EchoAgent_override] = Some cls
    /\ register_all [EchoAgent; BaseAgent; EchoAgent_override] imported = (Ok tt, st')
    /\ get_agent_class (VStr "EchoAgent") st' = (Ok cls, st').
Proof.
  apply (get_agent_class_last_registered
           [EchoAgent; BaseAgent; EchoAgent_override] "EchoAgent" imported).
  simpl. apply list_elem_of_here.
Defined.

Example last_registered_override :
  last_registered "EchoAgent" [EchoAgent; BaseAgent; EchoAgent_override]
  = Some EchoAgent_override.
Proof. reflexivity. Qed.

(** ** The runner *)

(** The loop's test on an element is the specification's well-formedness. *)
Lemma parse_step_check (agent_def : value) :
  negb (isinstance_dict agent_def) || negb (py_in (KStr "name") agent_def)
  = bool_decide (parse_step agent_def = None).
Proof.
  destruct agent_def as [| | | | |d]; try reflexivity. simpl.
  destruct (dict_get (KStr "name") d) as [name|]; reflexivity.
Qed.

(** One iteration of the loop on a well-formed element is one step. *)
Lemma run_steps_cons_step (idx : Z) (agent_def : value) (rest : list value)
    (s : step) (payload : value) (st : state) :
  parse_step agent_def = Some s ->
  run_steps idx (agent_def :: rest) payload st
  = (payload' ← run_step s payload; run_steps (idx + 1) rest payload') st.
Proof.
  intros Hs. destruct agent_def as [| | | | |d]; try discriminate.
  simpl in Hs. simpl.
  destruct (dict_get (KStr "name") d) as [name|] eqn:Hname; [|discriminate].
  injection Hs as <-. simpl. unfold run_step, mbind, M_bind, lift. simpl.
  destruct (get_agent_class name st) as [[cls|e] st1]; [|reflexivity].
  by destruct (dict_get (KStr "config") d).
Qed.

(** One iteration of the loop on a malformed element raises, naming the
    position. *)
Lemma run_steps_cons_malformed (idx : Z) (agent_def : value) (rest : list value)
    (payload : value) (st : state) :
  parse_step agent_def = None ->
  run_steps idx (agent_def :: rest) payload st = (Err (malformed_at idx), st).
Proof.
  intros Hs. simpl. rewrite parse_step_check, Hs. reflexivity.
Qed.

(** The loop over a list in two parts: the second part starts from the payload
    and the state the first one left, unless the first one raised. *)
Lemma run_steps_app (idx : Z) (defs1 defs2 : list value) (payload : value) (st : state) :
  run_steps idx (defs1 ++ defs2) payload st
  = (payload' ← run_steps idx defs1 payload;
     run_steps (idx + Z.of_nat (length defs1)) defs2 payload') st.
Proof.
  revert idx payload st. induction defs1 as [|agent_def defs1 IH]; intros idx payload st.
  - simpl. unfold mbind, M_bind, mret, M_ret. by rewrite Z.add_0_r.
  - destruct (parse_step agent_def) as [s|] eqn:Hs.
    + rewrite <- app_comm_cons. unfold mbind at 1, M_bind.
      rewrite !(run_steps_cons_step _ _ _ s) by done.
      unfold mbind, M_bind.
      destruct (run_step s payload st) as [[payload'|e] st1]; [|reflexivity].
      rewrite IH. unfold mbind, M_bind.
      replace (idx + 1 + Z.of_nat (length defs1))
        with (idx + Z.of_nat (length (agent_def :: defs1)))
        by (rewrite length_cons; lia).
      reflexivity.
    + rewrite <- app_comm_cons. unfold mbind, M_bind.
      rewrite !run_steps_cons_malformed by done.
      reflexivity.
Qed.

(** A pipeline started from a computation is that computation followed by the
    pipeline. *)
Lemma pipeline_fold_bind (steps : list step) (c : M value) (st : state) :
  fold_left (fun acc s => payload ← acc; run_step s payload) steps c st
  = (payload ← c; pipeline steps payload) st.
Proof.
  revert c st. induction steps as [|s steps IH]; intros c st.
  - simpl. unfold mbind, M_bind, pipeline. simpl.
    by destruct (c st) as [[payload|e] st1].
  - simpl. rewrite IH. unfold pipeline. simpl. unfold mbind at 1 3 4, M_bind.
    destruct (c st) as [[payload|e] st1]; [|reflexivity].
    rewrite IH. reflexivity.
Qed.

(** On a well-formed list the loop is the pipeline of its steps. *)
Lemma run_steps_pipeline (agent_defs : list value) (steps : list step)
    (idx : Z) (payload : value) (st : state) :
  mapM parse_step agent_defs = Some steps ->
  run_steps idx agent_defs payload st = pipeline steps payload st.
Proof.
  revert steps idx payload st.
  induction agent_defs as [|agent_def rest IH]; intros steps idx payload st Hsteps.
  - injection Hsteps as <-. reflexivity.
  - simpl in Hsteps.
    destruct (parse_step agent_def) as [s|] eqn:Hs; [|discriminate].
    destruct (mapM parse_step rest) as [steps'|] eqn:Hrest; [|discriminate].
    injection Hsteps as <-.
    rewrite (run_steps_cons_step _ _ _ s) by done.
    unfold pipeline. simpl. rewrite pipeline_fold_bind.
    unfold mbind at 1 2 3, M_bind. unfold mret, M_ret.
    destruct (run_step s payload st) as [[payload'|e] st1]; [|reflexivity].
    by apply IH.
Qed.

Lemma py_or_payload_arg (initial : option dict) :
  py_or (payload_arg initial) (VDict []) = start_payload initial.
Proof.
  destruct initial as [[|kv d]|]; reflexivity.
Qed.

(** From a specification that has the [agents] key, [run_workflow] is the loop
    over the elements of its value. *)
Lemma run_workflow_agents (spec : dict) (agents initial : value) (st : state) :
  dict_get (KStr "agents") spec = Some agents ->
  run_workflow (VDict spec) initial st
  = (agent_defs ← lift (py_iter agents);
     run_steps 1 agent_defs (py_or initial (VDict []))) st.
Proof.
  intros Hagents. unfold run_workflow. simpl. rewrite Hagents. reflexivity.
Qed.

(** C1: on a specification whose [agents] list is well formed, [run_workflow]
    is the left fold of the steps over the payload: starting from the initial
    payload (an empty mapping when omitted), each step resolves its agent by
    name in the registry, constructs it with the step's configuration (an
    empty mapping when absent) and calls [process] on the running payload,
    whose result is the next step's input. *)
Theorem run_workflow_is_pipeline (spec : dict) (agent_defs : list value)
    (steps : list step) (initial : option dict) (st : state) :
  dict_get (KStr "agents") spec = Some (VList agent_defs) ->
  mapM parse_step agent_defs = Some steps ->
  run_workflow (VDict spec) (payload_arg initial) st
  = pipeline steps (start_payload initial) st.
Proof.
  intros Hagents Hsteps.
  rewrite (run_workflow_agents _ _ _ _ Hagents), py_or_payload_arg.
  by apply run_steps_pipeline.
Qed.

Lemma run_workflow_is_pipeline_witness :
  run_workflow (VDict two_echo_workflow)
               (payload_arg (Some [(KStr "input", VStr "payload")])) imported
  = pipeline two_echo_steps (start_payload (Some [(KStr "input", VStr "payload")]))
             imported.
Proof.
  apply (run_workflow_is_pipeline two_echo_workflow
           [VDict [(KStr "name", VStr "EchoAgent");
                   (KStr "config", VDict [(KStr "prefix", VStr "[A]")])];
            VDict [(KStr "name", VStr "EchoAgent");
                   (KStr "config", VDict [(KStr "prefix", VStr "[B]")])]]).
  - reflexivity.
  - reflexivity.
Defined.

Example two_echo_last_message :
  (run_workflow (VDict two_echo_workflow) (VDict [(KStr "input", VStr "payload")])
                imported).1
  = Ok (VDict [(KStr "input", VStr "payload"); (KStr "message", VStr "[B] payload")]).
Proof. reflexivity. Qed.

(** C7: on a specification whose [agents] list is empty, [run_workflow]
    returns the initial payload, for every initial payload (and the empty
    mapping when it is omitted), and calls no agent. *)
Theorem run_workflow_empty (spec : dict) (initial : option dict) (st : state) :
  dict_get (KStr "agents") spec = Some (VList []) ->
  run_workflow (VDict spec) (payload_arg initial) st
  = (Ok (start_payload initial), st).
Proof.
  intros Hagents.
  rewrite (run_workflow_agents _ _ _ _ Hagents), py_or_payload_arg. reflexivity.
Qed.

Lemma run_workflow_empty_witness :
  run_workflow (VDict [(KStr "agents", VList [])])
               (payload_arg (Some [(KStr "input", VStr "payload")])) imported
  = (Ok (start_payload (Some [(KStr "input", VStr "payload")])), imported).
Proof.
  apply (run_workflow_empty [(KStr "agents", VList [])]).
  reflexivity.
Defined.

(** An [initial_payload] that is falsy without being a mapping, which the
    command line can pass, is replaced by the empty mapping as well. *)
Example falsy_list_payload_replaced :
  run_workflow (VDict [(KStr "agents", VList [])]) (VList []) imported
  = (Ok (VDict []), imported).
Proof. reflexivity. Qed.

(** C4: on a loaded specification that is not a mapping, or is a mapping
    without the [agents] key, [run_workflow] raises the [ValueError] whose
    message names the key [agents]; the state is unchanged, so no agent was
    called. *)
Theorem run_workflow_missing_agents (spec initial : value) (st : state) :
  isinstance_dict spec = false \/ py_in (KStr "agents") spec = false ->
  run_workflow spec initial st
  = (Err (missing_key "agents"), st).
Proof.
  intros Hspec. unfold run_workflow.
  assert (negb (isinstance_dict spec) || negb (py_in (KStr "agents") spec) = true) as ->.
  { destruct Hspec as [-> | ->]; [reflexivity|]. apply orb_true_r. }
  reflexivity.
Qed.

Lemma run_workflow_missing_agents_witness :
  run_workflow (VDict [(KStr "not_agents", VList [])]) (VDict []) imported
  = (Err (missing_key "agents"), imported).
Proof.
  apply (run_workflow_missing_agents (VDict [(KStr "not_agents", VList [])])).
  right. reflexivity.
Defined.

(** C9: a specification that is a mapping with the [agents] key bound to
    [None] passes the missing-key check, and [run_workflow] then raises a
    [TypeError], not a [ValueError], from iterating over [None]; no agent is
    called. *)
Theorem run_workflow_agents_None (spec : dict) (initial : value) (st : state) :
  dict_get (KStr "agents") spec = Some VNone ->
  (isinstance_dict (VDict spec) = true /\ py_in (KStr "agents") (VDict spec) = true)
  /\ run_workflow (VDict spec) initial st = (Err TypeError, st)
  /\ forall msg : string,
       (run_workflow (VDict spec) initial st).1 <> Err (ValueError msg).
Proof.
  intros Hagents.
  assert (run_workflow (VDict spec) initial st = (Err TypeError, st)) as Hrun
    by (by rewrite (run_workflow_agents _ _ _ _ Hagents)).
  split; [|split].
  - split; [reflexivity|]. simpl. rewrite Hagents. reflexivity.
  - exact Hrun.
  - intros msg. rewrite Hrun. discriminate.
Qed.

Lemma run_workflow_agents_None_witness :
  (isinstance_dict (VDict [(KStr "agents", VNone)]) = true
   /\ py_in (KStr "agents") (VDict [(KStr "agents", VNone)]) = true)
  /\ run_workflow (VDict [(KStr "agents", VNone)]) (VDict []) imported
     = (Err TypeError, imported)
  /\ forall msg : string,
       (run_workflow (VDict [(KStr "agents", VNone)]) (VDict []) imported).1
       <> Err (ValueError msg).
Proof.
  apply (run_workflow_agents_None [(KStr "agents", VNone)]).
  reflexivity.
Defined.

(** From a specification whose [agents] list ends its well-formed part
    [before] at an element [agent_def], once the steps of [before] have run. *)
Lemma run_workflow_reaches (spec : dict) (before : list value) (agent_def : value)
    (after : list value) (steps : list step) (initial payload : value)
    (st st1 : state) :
  dict_get (KStr "agents") spec = Some (VList (before ++ agent_def :: after)) ->
  mapM parse_step before = Some steps ->
  pipeline steps (py_or initial (VDict [])) st = (Ok payload, st1) ->
  run_workflow (VDict spec) initial st
  = run_steps (Z.of_nat (length before) + 1) (agent_def :: after) payload st1.
Proof.
  intros Hagents Hsteps Hrun.
  rewrite (run_workflow_agents _ _ _ _ Hagents).
  unfold mbind, M_bind, lift, py_iter.
  rewrite run_steps_app. unfold mbind, M_bind.
  rewrite (run_steps_pipeline _ steps) by done. rewrite Hrun.
  by rewrite Z.add_comm.
Qed.

(** C3, as the runner has it: an element is checked when the loop reaches it.
    If the elements before position [k] are well formed and their steps all
    return, and the element at position [k] is not a mapping containing
    [name], [run_workflow] raises the [ValueError] naming [k]. *)
Theorem run_workflow_malformed_step (spec : dict) (before : list value)
    (agent_def : value) (after : list value) (steps : list step)
    (initial payload : value) (st st1 : state) :
  dict_get (KStr "agents") spec = Some (VList (before ++ agent_def :: after)) ->
  mapM parse_step before = Some steps ->
  pipeline steps (py_or initial (VDict [])) st = (Ok payload, st1) ->
  parse_step agent_def = None ->
  run_workflow (VDict spec) initial st
  = (Err (malformed_at (Z.of_nat (length before) + 1)), st1).
Proof.
  intros Hagents Hsteps Hrun Hbad.
  rewrite (run_workflow_reaches _ _ _ _ _ _ _ _ _ Hagents Hsteps Hrun).
  by apply run_steps_cons_malformed.
Qed.

Lemma run_workflow_malformed_step_witness :
  run_workflow
    (VDict [(KStr "agents", VList [VDict [(KStr "name", VStr "EchoAgent")];
                                   VDict [(KStr "config", VDict [])]])])
    (VDict []) imported
  = (Err (malformed_at (Z.of_nat (length [VDict [(KStr "name", VStr "EchoAgent")]]) + 1)),
     {| AGENT_REGISTRY := AGENT_REGISTRY imported;
        process_log := [ProcessCall "EchoAgent" (VDict []) (VDict [])] |}).
Proof.
  apply (run_workflow_malformed_step
           [(KStr "agents", VList [VDict [(KStr "name", VStr "EchoAgent")];
                                   VDict [(KStr "config", VDict [])]])]
           [VDict [(KStr "name", VStr "EchoAgent")]]
           (VDict [(KStr "config", VDict [])]) []
           [ {| step_name := VStr "EchoAgent"; step_config := None |} ]
           (VDict []) (VDict [(KStr "message", VStr "Echo: ")])
           imported).
  - reflexivity.
  - reflexivity.
  - reflexivity.
  - reflexivity.
Defined.

Example malformed_first_element :
  (run_workflow (VDict [(KStr "agents", VList [VDict [(KStr "config", VDict [])]])])
                (VDict []) imported).1
  = Err (ValueError "Agent definition at position 1 is malformed.").
Proof. reflexivity. Qed.

Example malformed_second_element :
  (run_workflow
     (VDict [(KStr "agents", VList [VDict [(KStr "name", VStr "EchoAgent")];
                                    VStr "EchoAgent"])])
     (VDict []) imported).1
  = Err (ValueError "Agent definition at position 2 is malformed.").
Proof. reflexivity. Qed.

(** C3 as stated fails: here the second element has no [name], yet the run
    ends with the [KeyError] of the first step, whose agent is not registered,
    and not with a [ValueError]. *)
Lemma run_workflow_malformed_after_failure :
  parse_step (VDict [(KStr "config", VDict [])]) = None
  /\ run_workflow
       (VDict [(KStr "agents", VList [VDict [(KStr "name", VStr "Missing")];
                                      VDict [(KStr "config", VDict [])]])])
       (VDict []) imported
     = (Err (KeyError "Agent 'Missing' is not registered."), imported)
  /\ forall msg : string,
       (run_workflow
          (VDict [(KStr "agents", VList [VDict [(KStr "name", VStr "Missing")];
                                         VDict [(KStr "config", VDict [])]])])
          (VDict []) imported).1
       <> Err (ValueError msg).
Proof.
  split; [reflexivity|].
  assert (run_workflow
            (VDict [(KStr "agents", VList [VDict [(KStr "name", VStr "Missing")];
                                           VDict [(KStr "config", VDict [])]])])
            (VDict []) imported
          = (Err (KeyError "Agent 'Missing' is not registered."), imported)) as Hrun
    by reflexivity.
  split; [exact Hrun|].
  intros msg. rewrite Hrun. discriminate.
Qed.

(** [BaseAgent.__init__] replaces a falsy configuration by an empty mapping. *)
Lemma BaseAgent_init_falsy (cls : AgentCls) (config : value) :
  truthy config = false ->
  BaseAgent_init cls config = {| agent_cls := cls; self_config := VDict [] |}.
Proof.
  intros Hfalsy. unfold BaseAgent_init, py_or. by rewrite Hfalsy.
Qed.

(** C10: when the loop of [run_workflow] reaches a step whose [config] field
    is present and [None], the agent it constructs has the empty mapping as
    [self.config], and it is this agent whose [process] is called on the
    running payload. *)
Theorem run_workflow_None_config (spec : dict) (before : list value)
    (agent_def : dict) (after : list value) (steps : list step)
    (name : string) (cls : AgentCls) (initial payload : value) (st st1 : state) :
  dict_get (KStr "agents") spec
    = Some (VList (before ++ VDict agent_def :: after)) ->
  mapM parse_step before = Some steps ->
  pipeline steps (py_or initial (VDict [])) st = (Ok payload, st1) ->
  dict_get (KStr "name") agent_def = Some (VStr name) ->
  dict_get (KStr "config") agent_def = Some VNone ->
  AGENT_REGISTRY st1 !! name = Some cls ->
  BaseAgent_init cls VNone = {| agent_cls := cls; self_config := VDict [] |}
  /\ run_workflow (VDict spec) initial st
     = (payload' ← process {| agent_cls := cls; self_config := VDict [] |} payload;
        run_steps (Z.of_nat (length before) + 2) after payload') st1.
Proof.
  intros Hagents Hsteps Hrun Hname Hconfig Hcls.
  split; [by apply BaseAgent_init_falsy|].
  rewrite (run_workflow_reaches _ _ _ _ _ _ _ _ _ Hagents Hsteps Hrun).
  rewrite (run_steps_cons_step _ _ _
             {| step_name := VStr name; step_config := Some VNone |})
    by (simpl; by rewrite Hname, Hconfig).
  unfold run_step, mbind, M_bind. simpl.
  rewrite get_agent_class_lookup, Hcls.
  replace (Z.of_nat (length before) + 1 + 1) with (Z.of_nat (length before) + 2) by lia.
  reflexivity.
Qed.

Lemma run_workflow_None_config_witness :
  BaseAgent_init EchoAgent VNone = {| agent_cls := EchoAgent; self_config := VDict [] |}
  /\ run_workflow
       (VDict [(KStr "agents",
                VList [VDict [(KStr "name", VStr "EchoAgent"); (KStr "config", VNone)]])])
       (VDict [(KStr "input", VStr "x")]) imported
     = (payload' ← process {| agent_cls := EchoAgent; self_config := VDict [] |}
                           (VDict [(KStr "input", VStr "x")]);
        run_steps (Z.of_nat (length (@nil value)) + 2) [] payload') imported.
Proof.
  apply (run_workflow_None_config
           [(KStr "agents",
             VList [VDict [(KStr "name", VStr "EchoAgent"); (KStr "config", VNone)]])]
           [] [(KStr "name", VStr "EchoAgent"); (KStr "config", VNone)] [] []
           "EchoAgent" EchoAgent (VDict [(KStr "input", VStr "x")])
           (VDict [(KStr "input", VStr "x")]) imported imported).
  - reflexivity.
  - reflexivity.
  - reflexivity.
  - reflexivity.
  - reflexivity.
  - reflexivity.
Defined.

Example None_config_is_logged_empty :
  process_log
    (run_workflow
       (VDict [(KStr "agents",
                VList [VDict [(KStr "name", VStr "EchoAgent"); (KStr "config", VNone)]])])
       (VDict [(KStr "input", VStr "x")]) imported).2
  = [ProcessCall "EchoAgent" (VDict []) (VDict [(KStr "input", VStr "x")])].
Proof. reflexivity. Qed.


(** * Further properties of the registry, the agents and the runner *)

(** ** Lookups and state *)

(** A lookup, whatever it is given and whether or not it succeeds, leaves the
    state as it was. *)
Lemma get_agent_class_state (name : value) (st : state) :
  (get_agent_class name st).2 = st.
Proof.
  unfold get_agent_class, try_except, registry_getitem.
  destruct (as_key name) as [[| | |n]|]; try reflexivity.
  by destruct (AGENT_REGISTRY st !! n).
Qed.

Lemma run_step_registry (s : step) (payload : value) (st : state) :
  AGENT_REGISTRY (run_step s payload st).2 = AGENT_REGISTRY st.
Proof.
  unfold run_step, mbind, M_bind.
  pose proof (get_agent_class_state (step_name s) st) as Hst.
  destruct (get_agent_class (step_name s) st) as [[cls|e] st1]; simpl in Hst; subst st1;
    reflexivity.
Qed.

Lemma pipeline_cons (s : step) (steps : list step) (payload : value) (st : state) :
  pipeline (s :: steps) payload st
  = (payload' ← run_step s payload; pipeline steps payload') st.
Proof.
  unfold pipeline. simpl. rewrite pipeline_fold_bind.
  unfold mbind, M_bind, mret, M_ret. reflexivity.
Qed.

Lemma pipeline_registry (steps : list step) (payload : value) (st : state) :
  AGENT_REGISTRY (pipeline steps payload st).2 = AGENT_REGISTRY st.
Proof.
  revert payload st. induction steps as [|s steps IH]; intros payload st; [reflexivity|].
  rewrite pipeline_cons. unfold mbind, M_bind.
  pose proof (run_step_registry s payload st) as Hreg.
  destruct (run_step s payload st) as [[payload'|e] st1]; simpl in Hreg.
  - by rewrite IH.
  - exact Hreg.
Qed.


(** The calls of [process] made by the loop: the log only grows, by at most
    one call per element, and by exactly one per element when the loop
    returns. *)
Lemma run_steps_log (agent_defs : list value) (idx : Z) (payload : value) (st : state) :
  exists calls : list event,
    process_log (run_steps idx agent_defs payload st).2 = process_log st ++ calls
    /\ (length calls <= length agent_defs)%nat
    /\ forall result : value,
         (run_steps idx agent_defs payload st).1 = Ok result ->
         length calls = length agent_defs.
Proof.
  revert idx payload st.
  induction agent_defs as [|agent_def rest IH]; intros idx payload st.
  - exists []. simpl. rewrite app_nil_r. done.
  - destruct (parse_step agent_def) as [s|] eqn:Hs.
    + rewrite (run_steps_cons_step _ _ _ s) by done.
      unfold run_step, mbind, M_bind.
      pose proof (get_agent_class_state (step_name s) st) as Hst.
      destruct (get_agent_class (step_name s) st) as [[cls|e] st0]; simpl in Hst;
        subst st0.
      * unfold process.
        destruct (agent_process _ payload) as [payload'|e].
        -- match goal with |- context [run_steps _ rest payload' ?st1] =>
             destruct (IH (idx + 1) payload' st1) as (calls & Hlog & Hle & Hok)
           end.
           eexists (_ :: calls). rewrite Hlog. simpl. rewrite <- app_assoc. simpl.
           split; [reflexivity|]. split; [lia|].
           intros result Hres. by rewrite (Hok result Hres).
        -- eexists [_]. simpl. split; [reflexivity|]. split; [lia|]. discriminate.
      * exists []. simpl. rewrite app_nil_r. split; [done|]. split; [lia|]. discriminate.
    + rewrite run_steps_cons_malformed by done.
      exists []. simpl. rewrite app_nil_r. split; [done|]. split; [lia|]. discriminate.
Qed.

(** X2: when [run_workflow] returns on a specification whose [agents] value
    is a list, it has called [process] exactly once per element of the list:
    the log of calls is the earlier log followed by as many calls as the list
    has elements. *)
Theorem run_workflow_calls_each_step_once (spec : dict) (agent_defs : list value)
    (initial result : value) (st st' : state) :
  dict_get (KStr "agents") spec = Some (VList agent_defs) ->
  run_workflow (VDict spec) initial st = (Ok result, st') ->
  exists calls : list event,
    process_log st' = process_log st ++ calls
    /\ length calls = length agent_defs.
Proof.
  intros Hagents Hrun.
  rewrite (run_workflow_agents _ _ _ _ Hagents) in Hrun.
  unfold mbind, M_bind, lift, py_iter in Hrun.
  destruct (run_steps_log agent_defs 1 (py_or initial (VDict [])) st)
    as (calls & Hlog & _ & Hok).
  rewrite Hrun in Hlog, Hok. simpl in Hlog, Hok.
  exists calls. split; [exact Hlog|]. by apply (Hok result).
Qed.

Lemma run_workflow_calls_each_step_once_witness :
  exists calls : list event,
    process_log (run_workflow (VDict two_echo_workflow)
                   (VDict [(KStr "input", VStr "payload")]) imported).2
    = process_log imported ++ calls
    /\ length calls = length
         [VDict [(KStr "name", VStr "EchoAgent");
                 (KStr "config", VDict [(KStr "prefix", VStr "[A]")])];
          VDict [(KStr "name", VStr "EchoAgent");
                 (KStr "config", VDict [(KStr "prefix", VStr "[B]")])]].
Proof.
  apply (run_workflow_calls_each_step_once two_echo_workflow _
           (VDict [(KStr "input", VStr "payload")])
           (VDict [(KStr "input", VStr "payload"); (KStr "message", VStr "[B] payload")])
           imported).
  - reflexivity.
  - reflexivity.
Defined.

(** ** Errors raised by a step *)

(** X3: no error of a step is caught.  When the elements before an element
    are well formed and their steps return, and the step of that element
    raises, be it in the lookup of its agent or in [process], [run_workflow]
    raises the same exception, in the state the step left: the elements after
    it are not looked at. *)
Theorem run_workflow_step_error_aborts (spec : dict) (before : list value)
    (agent_def : value) (after : list value) (steps : list step) (s : step)
    (initial payload : value) (e : exn) (st st1 st2 : state) :
  dict_get (KStr "agents") spec = Some (VList (before ++ agent_def :: after)) ->
  mapM parse_step before = Some steps ->
  pipeline steps (py_or initial (VDict [])) st = (Ok payload, st1) ->
  parse_step agent_def = Some s ->
  run_step s payload st1 = (Err e, st2) ->
  run_workflow (VDict spec) initial st = (Err e, st2).
Proof.
  intros Hagents Hsteps Hrun Hs Herr.
  rewrite (run_workflow_reaches _ _ _ _ _ _ _ _ _ Hagents Hsteps Hrun).
  rewrite (run_steps_cons_step _ _ _ s) by done.
  unfold mbind, M_bind. by rewrite Herr.
Qed.

Lemma run_workflow_step_error_aborts_witness :
  run_workflow
    (VDict [(KStr "agents",
             VList [VDict [(KStr "name", VStr "EchoAgent"); (KStr "config", VStr "abc")];
                    VDict [(KStr "name", VStr "EchoAgent")]])])
    (VDict []) imported
  = (Err AttributeError,
     {| AGENT_REGISTRY := AGENT_REGISTRY imported;
        process_log := [ProcessCall "EchoAgent" (VStr "abc") (VDict [])] |}).
Proof.
  apply (run_workflow_step_error_aborts
           [(KStr "agents",
             VList [VDict [(KStr "name", VStr "EchoAgent"); (KStr "config", VStr "abc")];
                    VDict [(KStr "name", VStr "EchoAgent")]])]
           [] (VDict [(KStr "name", VStr "EchoAgent"); (KStr "config", VStr "abc")])
           [VDict [(KStr "name", VStr "EchoAgent")]] []
           {| step_name := VStr "EchoAgent"; step_config := Some (VStr "abc") |}
           (VDict []) (VDict []) AttributeError imported imported).
  - reflexivity.
  - reflexivity.
  - reflexivity.
  - reflexivity.
  - reflexivity.
Defined.

(** X4: a step that names an agent the registry does not have makes
    [run_workflow] raise the [KeyError] that quotes the name, once the steps
    before it have run; [process] is not called for that step. *)
Theorem run_workflow_unknown_agent (spec : dict) (before : list value)
    (agent_def : dict) (after : list value) (steps : list step) (n : string)
    (initial payload : value) (st st1 : state) :
  dict_get (KStr "agents") spec
    = Some (VList (before ++ VDict agent_def :: after)) ->
  mapM parse_step before = Some steps ->
  pipeline steps (py_or initial (VDict [])) st = (Ok payload, st1) ->
  dict_get (KStr "name") agent_def = Some (VStr n) ->
  AGENT_REGISTRY st !! n = None ->
  run_workflow (VDict spec) initial st
  = (Err (KeyError ("Agent '" +:+ n +:+ "' is not registered.")), st1).
Proof.
  intros Hagents Hsteps Hrun Hname Hn.
  rewrite (run_workflow_reaches _ _ _ _ _ _ _ _ _ Hagents Hsteps Hrun).
  rewrite (run_steps_cons_step _ _ _
             {| step_name := VStr n;
                step_config := dict_get (KStr "config") agent_def |})
    by (simpl; by rewrite Hname).
  unfold run_step, mbind, M_bind. simpl.
  rewrite get_agent_class_lookup.
  pose proof (pipeline_registry steps (py_or initial (VDict [])) st) as Hreg.
  rewrite Hrun in Hreg. simpl in Hreg. by rewrite Hreg, Hn.
Qed.

Lemma run_workflow_unknown_agent_witness :
  run_workflow
    (VDict [(KStr "agents",
             VList [VDict [(KStr "name", VStr "EchoAgent")];
                    VDict [(KStr "name", VStr "Missing")]])])
    (VDict []) imported
  = (Err (KeyError ("Agent '" +:+ "Missing" +:+ "' is not registered.")),
     {| AGENT_REGISTRY := AGENT_REGISTRY imported;
        process_log := [ProcessCall "EchoAgent" (VDict []) (VDict [])] |}).
Proof.
  apply (run_workflow_unknown_agent
           [(KStr "agents",
             VList [VDict [(KStr "name", VStr "EchoAgent")];
                    VDict [(KStr "name", VStr "Missing")]])]
           [VDict [(KStr "name", VStr "EchoAgent")]]
           [(KStr "name", VStr "Missing")] []
           [ {| step_name := VStr "EchoAgent"; step_config := None |} ]
           "Missing" (VDict []) (VDict [(KStr "message", VStr "Echo: ")]) imported).
  - reflexivity.
  - reflexivity.
  - reflexivity.
  - reflexivity.
  - reflexivity.
Defined.

(** X5: a step whose agent class has not overridden [process] (it runs
    [BaseAgent.process]) makes [run_workflow] raise [NotImplementedError],
    once the steps before it have run; the call is the last one made. *)
Theorem run_workflow_unimplemented_process (spec : dict) (before : list value)
    (agent_def : dict) (after : list value) (steps : list step) (n : string)
    (cls : AgentCls) (initial payload : value) (st st1 : state) :
  dict_get (KStr "agents") spec
    = Some (VList (before ++ VDict agent_def :: after)) ->
  mapM parse_step before = Some steps ->
  pipeline steps (py_or initial (VDict [])) st = (Ok payload, st1) ->
  dict_get (KStr "name") agent_def = Some (VStr n) ->
  AGENT_REGISTRY st !! n = Some cls ->
  cls_process cls = BaseAgent_process ->
  run_workflow (VDict spec) initial st
  = (Err not_implemented,
     {| AGENT_REGISTRY := AGENT_REGISTRY st1;
        process_log :=
          process_log st1
          ++ [ProcessCall (cls_name cls)
                (py_or (default (VDict []) (dict_get (KStr "config") agent_def))
                       (VDict []))
                payload] |}).
Proof.
  intros Hagents Hsteps Hrun Hname Hn Hcls.
  rewrite (run_workflow_reaches _ _ _ _ _ _ _ _ _ Hagents Hsteps Hrun).
  rewrite (run_steps_cons_step _ _ _
             {| step_name := VStr n;
                step_config := dict_get (KStr "config") agent_def |})
    by (simpl; by rewrite Hname).
  unfold run_step, mbind, M_bind. simpl.
  rewrite get_agent_class_lookup.
  pose proof (pipeline_registry steps (py_or initial (VDict [])) st) as Hreg.
  rewrite Hrun in Hreg. simpl in Hreg. rewrite <- Hreg in Hn. rewrite Hn.
  unfold process, agent_process. simpl. by rewrite Hcls.
Qed.

Lemma run_workflow_unimplemented_process_witness :
  run_workflow (VDict [(KStr "agents", VList [VDict [(KStr "name", VStr "BaseAgent")]])])
               (VDict []) only_BaseAgent
  = (Err not_implemented,
     {| AGENT_REGISTRY := AGENT_REGISTRY only_BaseAgent;
        process_log :=
          process_log only_BaseAgent
          ++ [ProcessCall (cls_name BaseAgent)
                (py_or (default (VDict [])
                          (dict_get (KStr "config") [(KStr "name", VStr "BaseAgent")]))
                       (VDict []))
                (VDict [])] |}).
Proof.
  apply (run_workflow_unimplemented_process
           [(KStr "agents", VList [VDict [(KStr "name", VStr "BaseAgent")]])]
           [] [(KStr "name", VStr "BaseAgent")] [] [] "BaseAgent" BaseAgent
           (VDict []) (VDict []) only_BaseAgent only_BaseAgent).
  - reflexivity.
  - reflexivity.
  - reflexivity.
  - reflexivity.
  - reflexivity.
  - reflexivity.
Defined.

(** ** More on the registry *)

(** X6: [get_agent_class] returns a class for a string [n] exactly when the
    registry maps [n] to that class, and then the state is as before. *)
Theorem get_agent_class_registered_iff (n : string) (cls : AgentCls) (st st' : state) :
  get_agent_class (VStr n) st = (Ok cls, st')
  <-> AGENT_REGISTRY st !! n = Some cls /\ st' = st.
Proof.
  rewrite get_agent_class_lookup. split.
  - destruct (AGENT_REGISTRY st !! n) as [cls'|]; [|discriminate].
    intros [= -> ->]. done.
  - intros [-> ->]. reflexivity.
Qed.

(** X7: a name that is not a string is never found.  [None], a boolean or an
    integer gives the [KeyError] that quotes the name as [str] renders it; a
    list or a mapping, which cannot be hashed, gives a [TypeError] that the
    handler lets through.  The state is unchanged. *)
Theorem get_agent_class_non_string_name (name : value) (st : state) :
  match name with
  | VStr _ => True
  | VList _ | VDict _ => get_agent_class name st = (Err TypeError, st)
  | VNone | VBool _ | VInt _ =>
      get_agent_class name st
      = (Err (KeyError ("Agent '" +:+ py_repr name +:+ "' is not registered.")), st)
  end.
Proof.
  destruct name; done.
Qed.

(** X8: registering a class a second time changes nothing: the state after two
    registrations of [cls] is the state after one, and both return [cls]. *)
Theorem register_agent_idempotent (cls : AgentCls) (st : state) :
  (_ ← register_agent cls; register_agent cls) st = register_agent cls st.
Proof.
  unfold register_agent, registry_setitem, mbind, M_bind, mret, M_ret. simpl.
  by rewrite insert_insert_eq.
Qed.

(** X9: registrations under different names do not interfere: the state after
    registering two classes with different names does not depend on the
    order. *)
Theorem register_agent_commute (cls1 cls2 : AgentCls) (st : state) :
  cls_name cls1 <> cls_name cls2 ->
  ((_ ← register_agent cls1; register_agent cls2) st).2
  = ((_ ← register_agent cls2; register_agent cls1) st).2.
Proof.
  intros Hne.
  unfold register_agent, registry_setitem, mbind, M_bind, mret, M_ret. simpl.
  by rewrite insert_insert_ne.
Qed.

Lemma register_agent_commute_witness :
  ((_ ← register_agent EchoAgent; register_agent BaseAgent) imported).2
  = ((_ ← register_agent BaseAgent; register_agent EchoAgent) imported).2.
Proof.
  apply (register_agent_commute EchoAgent BaseAgent imported).
  simpl. discriminate.
Defined.

(** X10: registrations only add names.  After registering the classes of a
    list, the registered names are the earlier names and the names of the
    classes, and a name that none of the classes has keeps its entry. *)
Theorem register_all_names (classes : list AgentCls) (st : state) :
  dom (AGENT_REGISTRY (register_all classes st).2)
  = dom (AGENT_REGISTRY st) ∪ list_to_set (map cls_name classes)
  /\ forall n : string,
       n ∉ map cls_name classes ->
       AGENT_REGISTRY (register_all classes st).2 !! n = AGENT_REGISTRY st !! n.
Proof.
  revert st. induction classes as [|cls rest IH]; intros st.
  - simpl. split; [by rewrite (right_id_L ∅ (∪))|done].
  - destruct (IH (register_agent cls st).2) as [Hdom Hother].
    change ((register_all (cls :: rest) st).2)
      with ((register_all rest (register_agent cls st).2).2).
    split.
    + rewrite Hdom. simpl. rewrite dom_insert_L.
      by rewrite (comm_L (∪) {[cls_name cls]} (dom (AGENT_REGISTRY st))),
           <- (assoc_L (∪)).
    + intros n Hn. simpl in Hn. rewrite not_elem_of_cons in Hn.
      destruct Hn as [Hne Hn]. rewrite (Hother n Hn). simpl.
      by apply lookup_insert_ne.
Qed.

(** X11: registration and the runner together: once a class is registered, a
    workflow with one step that names it runs that class's [process], on the
    step's configuration and the initial payload (each replaced by the empty
    mapping when falsy or absent), and returns what it returns. *)
Theorem registered_agent_runs (cls : AgentCls) (config : option value)
    (initial : value) (st : state) :
  (_ ← register_agent cls;
   run_workflow (workflow_of [step_def (cls_name cls) config]) initial) st
  = (cls_process cls (py_or (default (VDict []) config) (VDict []))
                   (py_or initial (VDict [])),
     {| AGENT_REGISTRY := <[cls_name cls := cls]> (AGENT_REGISTRY st);
        process_log :=
          process_log st
          ++ [ProcessCall (cls_name cls) (py_or (default (VDict []) config) (VDict []))
                (py_or initial (VDict []))] |}).
Proof.
  unfold register_agent, registry_setitem, mbind at 1, M_bind at 1, mbind at 1,
    M_bind at 1, mret, M_ret.
  unfold workflow_of.
  rewrite (run_workflow_agents _ (VList [step_def (cls_name cls) config]))
    by reflexivity.
  unfold mbind at 1, M_bind at 1, lift, py_iter.
  rewrite (run_steps_cons_step _ _ _
             {| step_name := VStr (cls_name cls); step_config := config |})
    by (by destruct config).
  unfold run_step, mbind, M_bind. simpl. rewrite get_agent_class_lookup. simpl.
  rewrite lookup_insert_eq. unfold process, agent_process. simpl.
  by destruct (cls_process cls _ _).
Qed.

(** ** More on the Echo agent *)

Lemma dict_setitem_setitem (k : key) (v1 v2 : value) (d : dict) :
  dict_setitem k v2 (dict_setitem k v1 d) = dict_setitem k v2 d.
Proof.
  induction d as [|[k0 v0] d IH]; simpl.
  - by rewrite key_eqb_refl.
  - destruct (key_eqb k k0) eqn:E; simpl; rewrite E; [done|]. by rewrite IH.
Qed.

(** The keys after [d[k] = v], in order. *)
Lemma dict_setitem_keys (k : key) (v : value) (d : dict) :
  map fst (dict_setitem k v d)
  = match dict_get k d with
    | Some _ => map fst d
    | None => map fst d ++ [k]
    end.
Proof.
  induction d as [|[k0 v0] d IH]; simpl; [done|].
  destruct (key_eqb k k0) eqn:E; simpl; [done|].
  rewrite IH. by destruct (dict_get k d).
Qed.

(** The Echo agent on a mapping, in closed form. *)
Lemma echo_agent_process (cfg : option dict) (p : dict) :
  agent_process (echo_agent cfg) (VDict p)
  = Ok (VDict (dict_setitem (KStr "message")
                 (VStr (py_str (default (VStr "Echo:") (cfg ≫= dict_get (KStr "prefix")))
                        +:+ " "
                        +:+ py_str (default (VStr "") (dict_get (KStr "input") p))))
                 p)).
Proof.
  unfold agent_process, echo_agent. rewrite BaseAgent_init_config. simpl.
  unfold EchoAgent_process. simpl.
  destruct cfg as [c|]; simpl; [|reflexivity].
  by destruct (dict_get (KStr "prefix") c).
Qed.

(** An Echo agent after another one gives what it gives alone. *)
Lemma echo_after_echo (cfg1 cfg2 : option dict) (p : dict) :
  (r ← agent_process (echo_agent cfg1) (VDict p); agent_process (echo_agent cfg2) r)
  = agent_process (echo_agent cfg2) (VDict p).
Proof.
  rewrite (echo_agent_process cfg1).
  change (agent_process (echo_agent cfg2)
            (VDict (dict_setitem (KStr "message")
               (VStr (py_str (default (VStr "Echo:") (cfg1 ≫= dict_get (KStr "prefix")))
                      +:+ " "
                      +:+ py_str (default (VStr "") (dict_get (KStr "input") p))))
               p))
          = agent_process (echo_agent cfg2) (VDict p)).
  rewrite !echo_agent_process.
  rewrite dict_get_setitem_ne by reflexivity.
  by rewrite dict_setitem_setitem.
Qed.

(** X12: of two Echo agents run one after the other on a mapping, only the
    second shows: the result is the one the second agent gives on the
    original payload, the first [message] being overwritten and nothing else
    added.  With the same configuration twice, the agent is idempotent. *)
Theorem EchoAgent_last_wins (cfg1 cfg2 : option dict) (p : dict) :
  (r ← agent_process (BaseAgent_init EchoAgent (from_option VDict VNone cfg1)) (VDict p);
   agent_process (BaseAgent_init EchoAgent (from_option VDict VNone cfg2)) r)
  = agent_process (BaseAgent_init EchoAgent (from_option VDict VNone cfg2)) (VDict p).
Proof.
  exact (echo_after_echo cfg1 cfg2 p).
Qed.

(** X13: on a payload that is not a mapping the Echo agent never returns: it
    raises, whatever its configuration is. *)
Theorem EchoAgent_rejects_non_mapping_payload (config payload : value) :
  isinstance_dict payload = false ->
  exists e : exn,
    agent_process (BaseAgent_init EchoAgent config) payload = Err e.
Proof.
  intros Hp. unfold agent_process. simpl. unfold EchoAgent_process.
  destruct (py_dict payload) as [result|e]; simpl; [|by eexists].
  destruct (py_get (py_or config (VDict [])) (KStr "prefix") (VStr "Echo:"))
    as [prefix|e]; simpl; [|by eexists].
  destruct payload; try discriminate; by eexists.
Qed.

Lemma EchoAgent_rejects_non_mapping_payload_witness :
  exists e : exn,
    agent_process (BaseAgent_init EchoAgent VNone) (VList [VInt 1]) = Err e.
Proof.
  apply (EchoAgent_rejects_non_mapping_payload VNone (VList [VInt 1])).
  reflexivity.
Defined.

(** X14: an Echo agent constructed with a configuration that is truthy and
    not a mapping (a string, a number, a list) raises [AttributeError] on
    every mapping payload. *)
Theorem EchoAgent_rejects_non_mapping_config (config : value) (p : dict) :
  truthy config = true ->
  isinstance_dict config = false ->
  agent_process (BaseAgent_init EchoAgent config) (VDict p) = Err AttributeError.
Proof.
  intros Htruthy Hconfig. unfold agent_process, BaseAgent_init, py_or.
  rewrite Htruthy. simpl. unfold EchoAgent_process. simpl.
  destruct config; try discriminate; reflexivity.
Qed.

Lemma EchoAgent_rejects_non_mapping_config_witness :
  agent_process (BaseAgent_init EchoAgent (VStr "abc"))
                (VDict [(KStr "input", VStr "x")])
  = Err AttributeError.
Proof.
  apply (EchoAgent_rejects_non_mapping_config (VStr "abc")).
  - reflexivity.
  - reflexivity.
Defined.

(** X15: the Echo agent keeps the keys of the payload in their order: the
    keys of its result are those of the payload, followed by [message] if
    the payload did not have it. *)
Theorem EchoAgent_keeps_keys_in_order (cfg : option dict) (p : dict) :
  exists r : dict,
    agent_process (BaseAgent_init EchoAgent (from_option VDict VNone cfg)) (VDict p)
    = Ok (VDict r)
    /\ map fst r
       = if py_in (KStr "message") (VDict p) then map fst p
         else map fst p ++ [KStr "message"].
Proof.
  eexists. split; [exact (echo_agent_process cfg p)|].
  rewrite dict_setitem_keys. simpl.
  by destruct (dict_get (KStr "message") p).
Qed.

(** ** More on the runner *)

(** A mapping given as payload is the payload the loop starts from. *)
Lemma py_or_mapping (p : dict) : py_or (VDict p) (VDict []) = VDict p.
Proof. by destruct p. Qed.

(** X16: a workflow in two parts.  If the first part of an [agents] list
    returns a mapping and the second part is well formed, the workflow of the
    whole list does what the workflow of the second part does when started
    from that mapping, in the state the first part left. *)
Theorem run_workflow_concat (spec1 spec2 spec : dict) (defs1 defs2 : list value)
    (steps2 : list step) (initial : value) (p : dict) (st st1 : state) :
  dict_get (KStr "agents") spec1 = Some (VList defs1) ->
  dict_get (KStr "agents") spec2 = Some (VList defs2) ->
  dict_get (KStr "agents") spec = Some (VList (defs1 ++ defs2)) ->
  mapM parse_step defs2 = Some steps2 ->
  run_workflow (VDict spec1) initial st = (Ok (VDict p), st1) ->
  run_workflow (VDict spec) initial st = run_workflow (VDict spec2) (VDict p) st1.
Proof.
  intros H1 H2 H12 Hsteps Hrun.
  rewrite (run_workflow_agents _ _ _ _ H1) in Hrun.
  rewrite (run_workflow_agents _ _ _ _ H2), (run_workflow_agents _ _ _ _ H12).
  unfold mbind, M_bind, lift, py_iter in *.
  rewrite run_steps_app. unfold mbind, M_bind. rewrite Hrun.
  rewrite !(run_steps_pipeline _ steps2) by done.
  by rewrite py_or_mapping.
Qed.

Lemma run_workflow_concat_witness :
  run_workflow (VDict two_echo_workflow) (VDict [(KStr "input", VStr "payload")]) imported
  = run_workflow (VDict [(KStr "agents", VList [echo_def (Some [(KStr "prefix", VStr "[B]")])])])
      (VDict [(KStr "input", VStr "payload"); (KStr "message", VStr "[A] payload")])
      {| AGENT_REGISTRY := AGENT_REGISTRY imported;
         process_log := [ProcessCall "EchoAgent" (VDict [(KStr "prefix", VStr "[A]")])
                           (VDict [(KStr "input", VStr "payload")])] |}.
Proof.
  apply (run_workflow_concat
           [(KStr "agents", VList [echo_def (Some [(KStr "prefix", VStr "[A]")])])]
           [(KStr "agents", VList [echo_def (Some [(KStr "prefix", VStr "[B]")])])]
           two_echo_workflow
           [echo_def (Some [(KStr "prefix", VStr "[A]")])]
           [echo_def (Some [(KStr "prefix", VStr "[B]")])]
           [ {| step_name := VStr "EchoAgent";
                step_config := Some (VDict [(KStr "prefix", VStr "[B]")]) |} ]).
  - reflexivity.
  - reflexivity.
  - reflexivity.
  - reflexivity.
  - reflexivity.
Defined.

(** X17: an [agents] value that is not a list.  [None], a boolean or an
    integer cannot be iterated: [TypeError].  A string or a mapping is
    iterated over its characters or keys, none of which is a mapping: the
    first one is reported as malformed at position 1, and an empty string or
    mapping is an empty workflow.  No agent is called. *)
Theorem run_workflow_agents_not_a_list (spec : dict) (agents initial : value)
    (st : state) :
  dict_get (KStr "agents") spec = Some agents ->
  match agents with
  | VList _ => True
  | VNone | VBool _ | VInt _ =>
      run_workflow (VDict spec) initial st = (Err TypeError, st)
  | VStr EmptyString | VDict [] =>
      run_workflow (VDict spec) initial st = (Ok (py_or initial (VDict [])), st)
  | VStr (String _ _) | VDict (_ :: _) =>
      run_workflow (VDict spec) initial st = (Err (malformed_at 1), st)
  end.
Proof.
  intros Hagents. rewrite (run_workflow_agents _ _ _ _ Hagents).
  destruct agents as [| | |[|c s]|l|[|[k v] d]]; try done.
  unfold mbind, M_bind, lift, py_iter. simpl map.
  apply run_steps_cons_malformed. by destruct k.
Qed.

Lemma run_workflow_agents_not_a_list_witness :
  run_workflow (VDict [(KStr "agents", VStr "EchoAgent")]) (VDict []) imported
  = (Err (malformed_at 1), imported).
Proof.
  apply (run_workflow_agents_not_a_list
           [(KStr "agents", VStr "EchoAgent")] (VStr "EchoAgent") (VDict []) imported).
  reflexivity.
Defined.

(** The loop over Echo steps only, from a mapping: the result of the last
    step alone, when [EchoAgent] is registered under its name. *)
Lemma run_steps_echo_chain (cfgs : list (option dict)) (cfg : option dict)
    (idx : Z) (p : dict) (st : state) :
  AGENT_REGISTRY st !! "EchoAgent" = Some EchoAgent ->
  (run_steps idx (map echo_def (cfgs ++ [cfg])) (VDict p) st).1
  = agent_process (echo_agent cfg) (VDict p).
Proof.
  revert idx p st. induction cfgs as [|cfg1 cfgs IH]; intros idx p st Hreg.
  - simpl app. simpl map.
    rewrite (run_steps_cons_step _ _ _
               {| step_name := VStr "EchoAgent"; step_config := VDict <$> cfg |})
      by (by destruct cfg).
    unfold run_step, mbind, M_bind. simpl. rewrite get_agent_class_lookup, Hreg.
    unfold process.
    assert (BaseAgent_init EchoAgent (default (VDict []) (VDict <$> cfg))
            = echo_agent cfg) as -> by (by destruct cfg as [[|kv c]|]).
    by destruct (agent_process (echo_agent cfg) (VDict p)).
  - rewrite <- app_comm_cons. simpl map.
    rewrite (run_steps_cons_step _ _ _
               {| step_name := VStr "EchoAgent"; step_config := VDict <$> cfg1 |})
      by (by destruct cfg1).
    unfold run_step, mbind, M_bind. simpl. rewrite get_agent_class_lookup, Hreg.
    unfold process.
    assert (BaseAgent_init EchoAgent (default (VDict []) (VDict <$> cfg1))
            = echo_agent cfg1) as -> by (by destruct cfg1 as [[|kv c]|]).
    rewrite <- (echo_after_echo cfg1 cfg p).
    rewrite (echo_agent_process cfg1 p). simpl.
    rewrite IH by exact Hreg. reflexivity.
Qed.

(** X18: a workflow all of whose steps name [EchoAgent], each with a mapping
    as configuration or with none, returns on a mapping what its last step
    alone returns on it: the payload with [message] set from the last
    prefix. *)
Theorem echo_chain_is_last_step (cfgs : list (option dict)) (cfg : option dict)
    (p : dict) (st : state) :
  AGENT_REGISTRY st !! "EchoAgent" = Some EchoAgent ->
  (run_workflow (workflow_of (map echo_def (cfgs ++ [cfg]))) (VDict p) st).1
  = agent_process (BaseAgent_init EchoAgent (from_option VDict VNone cfg)) (VDict p).
Proof.
  intros Hreg. unfold workflow_of.
  rewrite (run_workflow_agents _ (VList (map echo_def (cfgs ++ [cfg]))))
    by reflexivity.
  unfold mbind, M_bind, lift, py_iter.
  rewrite py_or_mapping.
  by apply run_steps_echo_chain.
Qed.

Lemma echo_chain_is_last_step_witness :
  (run_workflow
     (workflow_of (map echo_def ([Some [(KStr "prefix", VStr "[A]")]; None]
                                 ++ [Some [(KStr "prefix", VStr "[B]")]])))
     (VDict [(KStr "input", VStr "payload")]) imported).1
  = agent_process
      (BaseAgent_init EchoAgent
         (from_option VDict VNone (Some [(KStr "prefix", VStr "[B]")])))
      (VDict [(KStr "input", VStr "payload")]).
Proof.
  apply (echo_chain_is_last_step
           [Some [(KStr "prefix", VStr "[A]")]; None]
           (Some [(KStr "prefix", VStr "[B]")])
           [(KStr "input", VStr "payload")] imported).
  reflexivity.
Defined.

(** ** Discovery *)

(** Induction on a module with the submodules as induction hypotheses. *)
Lemma module_nested_ind (P : module -> Prop) :
  (forall mod_name is_pkg body submodules,
     Forall P submodules -> P (Module mod_name is_pkg body submodules)) ->
  forall m : module, P m.
Proof.
  intros HP. fix IH 1. intros [mod_name is_pkg body submodules]. apply HP.
  exact ((fix all (ms : list module) : Forall P ms :=
            match ms with
            | [] => @List.Forall_nil _ P
            | m :: rest => @List.Forall_cons _ P m rest (IH m) (all rest)
            end) submodules).
Qed.

Lemma for_each_ext {A} (f g : A -> D unit) (xs : list A) :
  (forall x, f x = g x) -> for_each f xs = for_each g xs.
Proof.
  intros Hfg. induction xs as [|x xs IH]; simpl; [done|]. by rewrite Hfg, IH.
Qed.

Lemma autodiscover_agents_unfold (package : string) (pkg : module) :
  autodiscover_agents package pkg
  = (_ ← import_module package (module_body pkg);
     if module_is_pkg pkg
     then for_each (discover_submodule package) (module_submodules pkg)
     else fun it => (Err AttributeError, it)).
Proof.
  destruct pkg as [mod_name is_pkg body submodules]. simpl.
  destruct is_pkg; [|reflexivity].
  rewrite (for_each_ext _ (discover_submodule package)); [reflexivity|].
  by intros [].
Qed.

Lemma discovered_unfold (package : string) (pkg : module) :
  discovered package pkg
  = package :: (if module_is_pkg pkg
                then flat_map (discovered_submodule package) (module_submodules pkg)
                else []).
Proof.
  destruct pkg as [mod_name is_pkg body submodules]. simpl.
  destruct is_pkg; [|reflexivity].
  f_equal. apply flat_map_ext. by intros [].
Qed.

(** A module already imported is not run again. *)
Lemma import_module_cached (full_name : string) (body : M unit) (it : interp) :
  full_name ∈ sys_modules it -> import_module full_name body it = (Ok tt, it).
Proof.
  intros Hin. unfold import_module. by rewrite decide_True.
Qed.

(** An import that returns leaves the module in [sys.modules], with those
    that were there. *)
Lemma import_module_loads (full_name : string) (body : M unit) (it it' : interp) :
  import_module full_name body it = (Ok tt, it') ->
  sys_modules it' = {[full_name]} ∪ sys_modules it.
Proof.
  unfold import_module. destruct (decide (full_name ∈ sys_modules it)) as [Hin|Hin].
  - intros [= <-]. apply set_eq. intros n.
    rewrite elem_of_union, elem_of_singleton. split; [by right|].
    by intros [->|Hn].
  - destruct (body (program it)) as [[[]|e] st']; [|discriminate].
    by intros [= <-].
Qed.

(** What a returning discovery has imported, for a module [m] of which this
    is known for the discoveries of [m] itself. *)
Lemma discover_submodule_loads (m : module) :
  (forall package it it',
     autodiscover_agents package m it = (Ok tt, it') ->
     sys_modules it ⊆ sys_modules it'
     /\ forall n, n ∈ discovered package m -> n ∈ sys_modules it') ->
  forall package it it',
    discover_submodule package m it = (Ok tt, it') ->
    sys_modules it ⊆ sys_modules it'
    /\ forall n, n ∈ discovered_submodule package m -> n ∈ sys_modules it'.
Proof.
  intros Hm package it it' Hrun.
  unfold discover_submodule, discovered_submodule, mbind, D_bind in *.
  destruct (import_module _ (module_body m) it) as [[[]|e] it0] eqn:Himp;
    [|discriminate].
  apply import_module_loads in Himp.
  destruct (module_is_pkg m).
  - destruct (Hm _ _ _ Hrun) as [Hsub Hall]. split; [|exact Hall].
    intros n Hn. apply Hsub. rewrite Himp. apply elem_of_union. by right.
  - injection Hrun as <-. rewrite Himp. split.
    + intros n Hn. apply elem_of_union. by right.
    + intros n Hn. apply list_elem_of_singleton in Hn as ->.
      apply elem_of_union. left. by apply elem_of_singleton.
Qed.

Lemma autodiscover_agents_loads (m : module) (package : string) (it it' : interp) :
  autodiscover_agents package m it = (Ok tt, it') ->
  sys_modules it ⊆ sys_modules it'
  /\ forall n, n ∈ discovered package m -> n ∈ sys_modules it'.
Proof.
  revert package it it'. induction m as [mod_name is_pkg body submodules IH]
    using module_nested_ind.
  intros package it it' Hrun.
  rewrite autodiscover_agents_unfold in Hrun. rewrite discovered_unfold.
  simpl in *. unfold mbind, D_bind in Hrun.
  destruct (import_module package body it) as [[[]|e] it0] eqn:Himp; [|discriminate].
  apply import_module_loads in Himp.
  destruct is_pkg; [|discriminate].
  assert (sys_modules it0 ⊆ sys_modules it'
          /\ forall n, n ∈ flat_map (discovered_submodule package) submodules ->
                       n ∈ sys_modules it') as [Hsub Hall].
  { clear Himp. revert it0 Hrun.
    induction IH as [|m rest Hm _ IHrest]; intros it0 Hrun.
    - injection Hrun as <-. split; [done|]. intros n Hn. by apply elem_of_nil in Hn.
    - simpl in Hrun. unfold mbind, D_bind in Hrun.
      destruct (discover_submodule package m it0) as [[[]|e] it1] eqn:Hone;
        [|discriminate].
      destruct (discover_submodule_loads m Hm _ _ _ Hone) as [Hsub1 Hall1].
      destruct (IHrest it1 Hrun) as [Hsub2 Hall2].
      split; [by etrans|].
      intros n Hn. simpl in Hn. apply elem_of_app in Hn as [Hn|Hn].
      + by apply Hsub2, Hall1.
      + by apply Hall2. }
  split.
  - intros n Hn. apply Hsub. rewrite Himp. apply elem_of_union. by right.
  - intros n Hn. apply elem_of_cons in Hn as [->|Hn]; [|by apply Hall].
    apply Hsub. rewrite Himp. apply elem_of_union. left. by apply elem_of_singleton.
Qed.

(** A discovery that returns was given a package. *)
Lemma autodiscover_agents_is_pkg (m : module) (package : string) (it it' : interp) :
  autodiscover_agents package m it = (Ok tt, it') -> module_is_pkg m = true.
Proof.
  rewrite autodiscover_agents_unfold. unfold mbind, D_bind.
  destruct (import_module package (module_body m) it) as [[[]|e] it0]; [|discriminate].
  by destruct (module_is_pkg m).
Qed.

(** When every module it would import is in [sys.modules], the discovery of a
    package returns and changes nothing. *)
Lemma autodiscover_agents_cached (m : module) (package : string) (it : interp) :
  module_is_pkg m = true ->
  (forall n, n ∈ discovered package m -> n ∈ sys_modules it) ->
  autodiscover_agents package m it = (Ok tt, it).
Proof.
  revert package it. induction m as [mod_name is_pkg body submodules IH]
    using module_nested_ind.
  intros package it Hpkg Hall. simpl in Hpkg. subst is_pkg.
  rewrite autodiscover_agents_unfold. rewrite discovered_unfold in Hall.
  simpl in *. unfold mbind, D_bind.
  rewrite import_module_cached by (apply Hall, list_elem_of_here).
  assert (forall n, n ∈ flat_map (discovered_submodule package) submodules ->
                    n ∈ sys_modules it) as Hsubs
    by (intros n Hn; by apply Hall, list_elem_of_further).
  clear Hall. induction IH as [|m rest Hm _ IHrest]; [reflexivity|].
  simpl. unfold mbind, D_bind.
  assert (discover_submodule package m it = (Ok tt, it)) as ->.
  { unfold discover_submodule, mbind, D_bind.
    assert (forall n, n ∈ discovered_submodule package m -> n ∈ sys_modules it) as Hm'
      by (intros n Hn; apply Hsubs; simpl; apply elem_of_app; by left).
    unfold discovered_submodule in Hm'.
    destruct (module_is_pkg m) eqn:Hpkg.
    - rewrite import_module_cached
        by (apply Hm'; rewrite discovered_unfold; apply list_elem_of_here).
      by apply Hm.
    - rewrite import_module_cached by (apply Hm', list_elem_of_here). reflexivity. }
  apply IHrest. intros n Hn. apply Hsubs. simpl. apply elem_of_app. by right.
Qed.

(** X19: discovery is idempotent.  After a discovery that returned, a second
    discovery of the same package returns as well and changes nothing: no
    module's code runs again, so the registry is the one the first discovery
    left. *)
Theorem autodiscover_agents_twice (package : string) (pkg : module)
    (it it' : interp) :
  autodiscover_agents package pkg it = (Ok tt, it') ->
  autodiscover_agents package pkg it' = (Ok tt, it').
Proof.
  intros Hrun. apply autodiscover_agents_cached.
  - by apply (autodiscover_agents_is_pkg _ _ _ _ Hrun).
  - by apply (autodiscover_agents_loads _ _ _ _ Hrun).
Qed.

(** X20: a discovery that returns has imported the package, each of its
    submodules and, recursively, the submodules of those that are packages:
    all are in [sys.modules] afterwards, with the modules that were there
    before. *)
Theorem autodiscover_agents_imports_all (package : string) (pkg : module)
    (it it' : interp) :
  autodiscover_agents package pkg it = (Ok tt, it') ->
  sys_modules it ⊆ sys_modules it'
  /\ forall n : string, n ∈ discovered package pkg -> n ∈ sys_modules it'.
Proof.
  apply autodiscover_agents_loads.
Qed.

Lemma autodiscover_agents_twice_witness :
  autodiscover_agents "ai_agents" ai_agents ai_agents_imported
  = (Ok tt, ai_agents_imported).
Proof.
  apply (autodiscover_agents_twice "ai_agents" ai_agents importing_ai_agents).
  reflexivity.
Defined.

Lemma autodiscover_agents_imports_all_witness :
  sys_modules importing_ai_agents ⊆ sys_modules ai_agents_imported
  /\ forall n : string,
       n ∈ discovered "ai_agents" ai_agents -> n ∈ sys_modules ai_agents_imported.
Proof.
  apply (autodiscover_agents_imports_all "ai_agents" ai_agents importing_ai_agents
           ai_agents_imported).
  reflexivity.
Defined.

(** Importing the package leaves the program in the state [imported]: the
    discovery at the end of [__init__.py] has registered [EchoAgent]. *)
Example ai_agents_import_registers_EchoAgent :
  autodiscover_agents "ai_agents" ai_agents importing_ai_agents
  = (Ok tt, ai_agents_imported).
Proof. reflexivity. Qed.

Lemma for_each_app {A} (f : A -> D unit) (xs ys : list A) (it : interp) :
  for_each f (xs ++ ys) it = (_ ← for_each f xs; for_each f ys) it.
Proof.
  revert it. induction xs as [|x xs IH]; intros it; [reflexivity|].
  simpl. unfold mbind, D_bind in *.
  destruct (f x it) as [[[]|e] it1]; [|reflexivity]. apply IH.
Qed.

(** X21: a module whose code raises stops the discovery.  If the discovery of
    a package with the submodules listed before [m] returns, [m] is not yet
    imported and its top-level code raises, then the discovery of the package
    raises the same exception; [m] does not enter [sys.modules], and the
    submodules listed after it are not imported. *)
Theorem autodiscover_agents_import_error (package mod_name : string)
    (body : M unit) (before : list module) (m : module) (after : list module)
    (e : exn) (it it1 : interp) (st' : state) :
  autodiscover_agents package (Module mod_name true body before) it = (Ok tt, it1) ->
  package +:+ "." +:+ module_name m ∉ sys_modules it1 ->
  module_body m (program it1) = (Err e, st') ->
  autodiscover_agents package (Module mod_name true body (before ++ m :: after)) it
  = (Err e, {| program := st'; sys_modules := sys_modules it1 |}).
Proof.
  intros Hbefore Hfresh Hbody.
  rewrite autodiscover_agents_unfold in *. simpl in *.
  unfold mbind at 1, D_bind at 1 in Hbefore. unfold mbind at 1, D_bind at 1.
  destruct (import_module package body it) as [[[]|e0] it0]; [|discriminate].
  rewrite for_each_app. unfold mbind at 1, D_bind at 1. rewrite Hbefore.
  simpl. unfold mbind at 1, D_bind at 1.
  unfold discover_submodule, mbind at 1, D_bind at 1, import_module.
  rewrite decide_False by exact Hfresh. by rewrite Hbody.
Qed.

Lemma autodiscover_agents_import_error_witness :
  autodiscover_agents "ai_agents"
    (Module "ai_agents" true (mret tt)
       ([Module "agent" false (_ ← register_agent EchoAgent; mret tt) []]
        ++ Module "broken" false (raise (ValueError "boom")) []
           :: [Module "later" false (_ ← register_agent BaseAgent; mret tt) []]))
    importing_ai_agents
  = (Err (ValueError "boom"),
     {| program := imported; sys_modules := sys_modules ai_agents_imported |}).
Proof.
  apply (autodiscover_agents_import_error "ai_agents" "ai_agents" (mret tt)
           [Module "agent" false (_ ← register_agent EchoAgent; mret tt) []]
           (Module "broken" false (raise (ValueError "boom")) [])
           [Module "later" false (_ ← register_agent BaseAgent; mret tt) []]
           (ValueError "boom") importing_ai_agents ai_agents_imported imported).
  - reflexivity.
  - simpl. rewrite elem_of_union, !elem_of_singleton. intros [H|H]; discriminate H.
  - reflexivity.
Defined.









(** From an interpreter that has imported nothing, the discovery of the
    package leaves the registry with [EchoAgent] in it. *)
Example fresh_discovery_registers_EchoAgent :
  program (autodiscover_agents "ai_agents" ai_agents fresh_interp).2 = imported.
Proof. reflexivity. Qed.
